(** * optional_python: the [Optional] container of [optional_python/Optional.py]

    A shallow embedding of the class [Optional] and the statements of its
    specification.  Python objects are a small universe of values; instances
    of [Optional] live in a heap and are denoted by their address, so that
    object identity ([return self]) differs from equality of contents.
    Methods are computations in a state-and-exception monad; every call the
    container makes to a user-supplied callable is recorded in a trace. *)

From Stdlib Require Import ZArith Ascii String.
From stdpp Require Import base list strings.

Local Open Scope string_scope.

(** ** Python values and exceptions *)

Definition loc := nat.

(** The exception classes the module raises, and any other class a caller may
    supply (taken to derive directly from [Exception]). *)
Inductive exc_class : Type :=
  | TypeError
  | AttributeError
  | OtherError (name : string).

(** An exception instance: its class and its message ([str(e)]). *)
Record exn : Type := Exn { exn_class : exc_class; exn_msg : string }.

Inductive value : Type :=
  | VNone
  | VBool (b : bool)
  | VInt (n : Z)
  | VStr (s : string)
  | VOptional (l : loc)          (* reference to an instance of Optional *)
  | VExcInstance (e : exn)
  | VExcClass (c : exc_class).

(** [x is None] *)
Definition is_None (x : value) : bool :=
  match x with VNone => true | _ => false end.

(** Truth value testing, as done by [if] and [or]. [Optional] defines neither
    [__bool__] nor [__len__], so its instances are true. *)
Definition truthy (x : value) : bool :=
  match x with
  | VNone => false
  | VBool b => b
  | VInt n => negb (n =? 0)%Z
  | VStr s => negb (String.eqb s "")
  | VOptional _ | VExcInstance _ | VExcClass _ => true
  end.

Definition class_name (c : exc_class) : string :=
  match c with
  | TypeError => "TypeError"
  | AttributeError => "AttributeError"
  | OtherError name => name
  end.

(** [type(x).__name__] *)
Definition type_name (x : value) : string :=
  match x with
  | VNone => "NoneType"
  | VBool _ => "bool"
  | VInt _ => "int"
  | VStr _ => "str"
  | VOptional _ => "Optional"
  | VExcInstance e => class_name (exn_class e)
  | VExcClass _ => "type"
  end.

(** The message of the [AttributeError] raised by [x.attr] when [x] has no
    attribute [attr]. *)
Definition no_attribute (x : value) (attr : string) : string :=
  match x with
  | VExcClass c =>
      "type object '" ++ class_name c ++ "' has no attribute '" ++ attr ++ "'"
  | _ => "'" ++ type_name x ++ "' object has no attribute '" ++ attr ++ "'"
  end.

Inductive outcome (A : Type) : Type :=
  | Return (a : A)
  | Raise (e : exn).
Arguments Return {A} a.
Arguments Raise {A} e.

(** A call made by the container to a callable it was given. *)
Inductive event : Type := Call (f : string) (args : list value).

(** Number of calls to the callable named [f] in a trace. *)
Definition calls_to (f : string) (tr : list event) : nat :=
  length (List.filter (fun ev => match ev with Call g _ => String.eqb f g end) tr).

Section Machine.

(** The caller's own state, on which the callables act. *)
Context {W : Type}.

(** [heap] holds the attribute [_obj] of every instance of [Optional],
    indexed by address. *)
Record state : Type := State {
  heap : list value;
  world : W;
  trace : list event
}.

Definition M (A : Type) : Type := state -> outcome A * state.

Definition ret {A} (a : A) : M A := fun s => (Return a, s).

Definition raise {A} (e : exn) : M A := fun s => (Raise e, s).

Definition bind {A B} (m : M A) (k : A -> M B) : M B := fun s =>
  match m s with
  | (Return a, s') => k a s'
  | (Raise e, s') => (Raise e, s')
  end.

(** What running a callable yields: it returns or raises, may have created
    instances of [Optional] of its own ([cb_new], their [_obj] attributes),
    and leaves the caller's state changed. It sees the heap but cannot
    assign to [_obj] of an existing instance, which no code of the module
    does after [__init__]. *)
Record cb_result : Type := CbResult {
  cb_out : outcome value;
  cb_new : list value;
  cb_world : W
}.

Record callable : Type := Callable {
  fname : string;
  fbody : list value -> list value -> W -> cb_result
}.

(** The state once a new instance whose [_obj] is [obj] has been created,
    at the address [length (heap s)]. *)
Definition alloc (obj : value) (s : state) : state :=
  {| heap := heap s ++ [obj]; world := world s; trace := trace s |}.

(** Calling [f] on the positional arguments [args]; the call is logged. *)
Definition call (f : callable) (args : list value) : M value := fun s =>
  let r := fbody f args (heap s) (world s) in
  (cb_out r,
   {| heap := heap s ++ cb_new r;
      world := cb_world r;
      trace := trace s ++ [Call (fname f) args] |}).

(** The statement [raise x]. *)
Definition raise_stmt {A} (x : value) : M A :=
  match x with
  | VExcInstance e => raise e
  | VExcClass c => raise (Exn c "")
  | _ => raise (Exn TypeError "exceptions must derive from BaseException")
  end.

(** The built-in [TypeError.__new__], the default [exception_provider] of
    [or_else_throw]. Its first argument is the class to instantiate. *)
Definition TypeError_new : callable :=
  {| fname := "TypeError.__new__";
     fbody := fun args _ w =>
       let out :=
         match args with
         | [] => Raise (Exn TypeError "TypeError.__new__(): not enough arguments")
         | VExcClass TypeError :: rest =>
             Return (VExcInstance
                       (Exn TypeError
                            match rest with [VStr m] => m | _ => "" end))
         | VExcClass c :: _ =>
             Raise (Exn TypeError
                        ("TypeError.__new__(" ++ class_name c ++ "): "
                         ++ class_name c ++ " is not a subtype of TypeError"))
         | x :: _ =>
             Raise (Exn TypeError
                        ("TypeError.__new__(X): X is not a type object ("
                         ++ type_name x ++ ")"))
         end in
       {| cb_out := out; cb_new := []; cb_world := w |} |}.

End Machine.

Arguments state W : clear implicits.
Arguments callable W : clear implicits.
Arguments cb_result W : clear implicits.

Declare Scope py_scope.
Delimit Scope py_scope with py.
Notation "'do' x <- m ;; k" := (bind m (fun x => k))
  (at level 10, x name, m at level 99, k at level 200) : py_scope.

(** ** The class [Optional] *)

Module Optional.
Section Methods.

Context {W : Type}.
Local Open Scope py_scope.

Abbreviation M := (@M W).

(** The attribute access [self._obj]. *)
Definition getattr_obj (self : value) : M value := fun s =>
  match self with
  | VOptional l =>
      match heap s !! l with
      | Some x => (Return x, s)
      | None => (Raise (Exn AttributeError (no_attribute self "_obj")), s)
      end
  | _ => (Raise (Exn AttributeError (no_attribute self "_obj")), s)
  end.

(** The call [self.name()] of a method of the class from inside another:
    the attribute [name] is looked up on [self], which finds the method
    [body] when [self] is an instance of [Optional] and fails on any other
    object. *)
Definition method {A} (self : value) (name : string) (body : value -> M A)
    : M A :=
  match self with
  | VOptional _ => body self
  | _ => raise (Exn AttributeError (no_attribute self name))
  end.

(** [cls(obj)], and just as well [Optional(obj)] written by a caller: the
    class has no metaclass, so the call is [type.__call__], which allocates
    an instance and runs [__init__] on it ([self._obj = obj]). *)
Definition cls_call (obj : value) : M value := fun s =>
  (Return (VOptional (length (heap s))), alloc obj s).

(** [__call__], defined in the body of the class: it is looked up when an
    instance is called, [opt(...)], with the instance as [cls]; a call of
    the class does not go through it. The message reads
    [cls.__qualname__], which an instance does not have. *)
Definition __call__ (cls : loc) (args : list value) : M value :=
  raise (Exn AttributeError
             "'Optional' object has no attribute '__qualname__'").

(** [_create], likewise an instance method: [super()] has no [__call__],
    neither [Generic] nor [object] defines one. No code of the module
    calls it. *)
Definition _create (cls : loc) (args : list value) : M value :=
  raise (Exn AttributeError "'super' object has no attribute '__call__'").

Definition get (self : value) : M value :=
  do o <- getattr_obj self ;;
  if is_None o then raise (Exn TypeError "Optional contains no object")
  else getattr_obj self.

Definition is_present (self : value) : M bool :=
  do o <- getattr_obj self ;;
  ret (negb (is_None o)).

Definition is_empty (self : value) : M bool :=
  do o <- getattr_obj self ;;
  ret (is_None o).

Definition if_present (self : value) (consumer : callable W) : M value :=
  do p <- method self "is_present" is_present ;;
  if p then
    do o <- getattr_obj self ;;
    do r <- call consumer [o] ;;
    ret VNone
  else ret VNone.

Definition of_nullable (obj : value) : M value := cls_call obj.

Definition empty : M value := cls_call VNone.

(** The class method [of] ([of] is a reserved word here). *)
Definition of_ (obj : value) : M value :=
  if is_None obj then
    raise (Exn AttributeError "The object provided is None, not allowed")
  else cls_call obj.

Definition map (self : value) (function : callable W) : M value :=
  do p <- method self "is_present" is_present ;;
  if p then
    do o <- getattr_obj self ;;
    do new_obj <- call function [o] ;;
    of_nullable new_obj
  else empty.

(** [self.is_empty() or predicate(self._obj)]: the right operand is
    evaluated only when the left one is false. *)
Definition filter (self : value) (predicate : callable W) : M value :=
  do e <- method self "is_empty" is_empty ;;
  do c <- (if e then ret (VBool true)
           else do o <- getattr_obj self ;; call predicate [o]) ;;
  if truthy c then ret self else empty.

Definition or_else (self : value) (other_value : value) : M value :=
  do p <- method self "is_present" is_present ;;
  if p then getattr_obj self else ret other_value.

Definition or_else_get (self : value) (provider : callable W) : M value :=
  do p <- method self "is_present" is_present ;;
  if p then getattr_obj self else call provider [].

(** The argument [exception_provider] is absent when the caller passes
    none; it then takes its default, [TypeError.__new__]. *)
Definition or_else_throw (self : value)
    (exception_provider : option (callable W)) : M value :=
  let exception_provider := default TypeError_new exception_provider in
  do e <- method self "is_empty" is_empty ;;
  if e then
    do x <- call exception_provider [] ;;
    raise_stmt x
  else getattr_obj self.

End Methods.
End Optional.

(** ** Vocabulary of the statements *)

Section Vocabulary.

Context {W : Type}.

(** The [_obj] attribute of the instance that [self] denotes, if [self] is
    an instance of [Optional] that exists in [s]. *)
Definition slot (s : state W) (self : value) : option value :=
  match self with
  | VOptional l => heap s !! l
  | _ => None
  end.

(** The state in which [f] leaves the machine once the container has called
    it on [args]. *)
Definition after_call (f : callable W) (args : list value) (s : state W)
    : state W :=
  snd (call f args s).

(** What the call [f(args)] made in state [s] returns or raises. *)
Definition result_of (f : callable W) (args : list value) (s : state W)
    : outcome value :=
  fst (call f args s).

(** A function of one argument that acts on the caller's state alone. *)
Definition world_fn (name : string)
    (body : value -> W -> outcome value * W) : callable W :=
  {| fname := name;
     fbody := fun args _ w =>
       match args with
       | [x] =>
           let (out, w') := body x w in
           {| cb_out := out; cb_new := []; cb_world := w' |}
       | _ =>
           {| cb_out :=
                Raise (Exn TypeError
                           (name ++ "() takes exactly one positional argument"));
              cb_new := []; cb_world := w |}
       end |}.

(** [lambda x: g(f(x))] *)
Definition compose (g f : callable W) : callable W :=
  {| fname := "compose(" ++ fname g ++ ", " ++ fname f ++ ")";
     fbody := fun args h w =>
       match args with
       | [x] =>
           let r1 := fbody f [x] h w in
           match cb_out r1 with
           | Return y =>
               let r2 := fbody g [y] (h ++ cb_new r1) (cb_world r1) in
               {| cb_out := cb_out r2;
                  cb_new := cb_new r1 ++ cb_new r2;
                  cb_world := cb_world r2 |}
           | Raise e => r1
           end
       | _ =>
           {| cb_out :=
                Raise (Exn TypeError
                           "<lambda>() takes exactly one positional argument");
              cb_new := []; cb_world := w |}
       end |}.

(** The operations that hand out a container. *)
Inductive producer : Type :=
  | By_of (obj : value)
  | By_of_nullable (obj : value)
  | By_empty
  | By_map (self : value) (function : callable W)
  | By_filter (self : value) (predicate : callable W).

Definition produce (p : producer) : M value :=
  match p with
  | By_of obj => Optional.of_ obj
  | By_of_nullable obj => Optional.of_nullable obj
  | By_empty => Optional.empty
  | By_map self function => Optional.map self function
  | By_filter self predicate => Optional.filter self predicate
  end.

End Vocabulary.

(** ** Every method, and chains of combinators *)

Section Invocations.

Context {W : Type}.
Local Open Scope py_scope.

(** A call of one method of the class, with its arguments. *)
Inductive invocation : Type :=
  | I_get (self : value)
  | I_is_present (self : value)
  | I_is_empty (self : value)
  | I_if_present (self : value) (consumer : callable W)
  | I_map (self : value) (function : callable W)
  | I_filter (self : value) (predicate : callable W)
  | I_or_else (self : value) (other_value : value)
  | I_or_else_get (self : value) (provider : callable W)
  | I_or_else_throw (self : value) (exception_provider : option (callable W))
  | I_of (obj : value)
  | I_of_nullable (obj : value)
  | I_empty
  | I_direct (obj : value).

(** Running it; the booleans of [is_present] and [is_empty] are returned as
    Python values. *)
Definition invoke (i : invocation) : M value :=
  match i with
  | I_get self => Optional.get self
  | I_is_present self => do b <- Optional.is_present self ;; ret (VBool b)
  | I_is_empty self => do b <- Optional.is_empty self ;; ret (VBool b)
  | I_if_present self consumer => Optional.if_present self consumer
  | I_map self function => Optional.map self function
  | I_filter self predicate => Optional.filter self predicate
  | I_or_else self other_value => Optional.or_else self other_value
  | I_or_else_get self provider => Optional.or_else_get self provider
  | I_or_else_throw self exception_provider =>
      Optional.or_else_throw self exception_provider
  | I_of obj => Optional.of_ obj
  | I_of_nullable obj => Optional.of_nullable obj
  | I_empty => Optional.empty
  | I_direct obj => Optional.cls_call obj
  end.

(** The object a method is called on; the class methods have none. *)
Definition receiver (i : invocation) : option value :=
  match i with
  | I_get self | I_is_present self | I_is_empty self
  | I_if_present self _ | I_map self _ | I_filter self _
  | I_or_else self _ | I_or_else_get self _ | I_or_else_throw self _ =>
      Some self
  | I_of _ | I_of_nullable _ | I_empty | I_direct _ => None
  end.

(** One link of a chain [opt.map(f).filter(p)...]. *)
Inductive step : Type :=
  | Step_map (function : callable W)
  | Step_filter (predicate : callable W).

Definition apply_step (st : step) (self : value) : M value :=
  match st with
  | Step_map function => Optional.map self function
  | Step_filter predicate => Optional.filter self predicate
  end.

Fixpoint chain (steps : list step) (self : value) : M value :=
  match steps with
  | [] => ret self
  | st :: rest => do o <- apply_step st self ;; chain rest o
  end.

(** [lambda: d] *)
Definition const_provider (d : value) : callable W :=
  {| fname := "<lambda>";
     fbody := fun args _ w =>
       {| cb_out :=
            match args with
            | [] => Return d
            | _ =>
                Raise (Exn TypeError
                           "<lambda>() takes 0 positional arguments")
            end;
          cb_new := []; cb_world := w |} |}.

(** What [raise x] raises. *)
Definition raised_by (x : value) : exn :=
  match x with
  | VExcInstance e => e
  | VExcClass c => Exn c ""
  | _ => Exn TypeError "exceptions must derive from BaseException"
  end.

(** Is [x] an instance of [Optional]? *)
Definition is_instance (x : value) : bool :=
  match x with VOptional _ => true | _ => false end.

(** The first attribute a method looks up on [self]: [_obj] in [get],
    [is_present] and [is_empty], the method [is_present] or [is_empty] in
    the others. *)
Definition first_lookup (i : invocation) : option string :=
  match i with
  | I_get _ | I_is_present _ | I_is_empty _ => Some "_obj"
  | I_if_present _ _ | I_map _ _ | I_or_else _ _ | I_or_else_get _ _ =>
      Some "is_present"
  | I_filter _ _ | I_or_else_throw _ _ => Some "is_empty"
  | I_of _ | I_of_nullable _ | I_empty | I_direct _ => None
  end.

(** The callable a method was given, if any; for [or_else_throw] without
    an argument it is the default. *)
Definition callable_of (i : invocation) : option (callable W) :=
  match i with
  | I_if_present _ f | I_map _ f | I_filter _ f | I_or_else_get _ f => Some f
  | I_or_else_throw _ exception_provider =>
      Some (default TypeError_new exception_provider)
  | _ => None
  end.

(** [s'] is [s] after at most one call of the callable [c], followed by
    the creation of at most one instance. *)
Definition footprint (c : option (callable W)) (s s' : state W) : Prop :=
  exists mid,
    (mid = s \/ exists f args, c = Some f /\ mid = after_call f args s)
    /\ (s' = mid \/ exists x, s' = alloc x mid).

End Invocations.

(** ** Sample callables and states

    The caller's state is a counter here. *)

Definition s0 : state nat := {| heap := []; world := 0; trace := [] |}.

Definition upper_char (c : ascii) : ascii :=
  let n := nat_of_ascii c in
  if ((97 <=? n) && (n <=? 122))%nat then ascii_of_nat (n - 32) else c.

Fixpoint upper (t : string) : string :=
  match t with
  | EmptyString => EmptyString
  | String c t' => String (upper_char c) (upper t')
  end.

(** [str.upper] *)
Definition str_upper : callable nat :=
  world_fn "str.upper" (fun x w =>
    match x with
    | VStr t => (Return (VStr (upper t)), w)
    | _ =>
        (Raise (Exn TypeError
                    ("descriptor 'upper' for 'str' objects doesn't apply to a '"
                     ++ type_name x ++ "' object")), w)
    end).

(** [len] on strings *)
Definition str_len : callable nat :=
  world_fn "len" (fun x w =>
    match x with
    | VStr t => (Return (VInt (Z.of_nat (String.length t))), w)
    | _ =>
        (Raise (Exn TypeError
                    ("object of type '" ++ type_name x ++ "' has no len()")), w)
    end).

(** [lambda x: x > 0], counting its own invocations in the caller's state. *)
Definition is_positive : callable nat :=
  world_fn "is_positive" (fun x w =>
    match x with
    | VInt n => (Return (VBool (0 <? n)%Z), S w)
    | VBool b => (Return (VBool b), S w)
    | _ =>
        (Raise (Exn TypeError
                    ("'>' not supported between instances of '"
                     ++ type_name x ++ "' and 'int'")), S w)
    end).

(** A provider that counts its own invocations and returns 42. *)
Definition provider42 : callable nat :=
  {| fname := "provider42";
     fbody := fun _ _ w =>
       {| cb_out := Return (VInt 42); cb_new := []; cb_world := S w |} |}.

(** A callable that always raises [KeyError("boom")] and counts its own
    invocations. *)
Definition boom : callable nat :=
  {| fname := "boom";
     fbody := fun _ _ w =>
       {| cb_out := Raise (Exn (OtherError "KeyError") "boom");
          cb_new := []; cb_world := S w |} |}.

(** [lambda x: None] *)
Definition to_None : callable nat :=
  world_fn "to_None" (fun _ w => (Return VNone, w)).

(** [lambda x: Optional.of_nullable(x)] *)
Definition wrap : callable nat :=
  {| fname := "wrap";
     fbody := fun args h w =>
       match args with
       | [x] =>
           {| cb_out := Return (VOptional (length h));
              cb_new := [x]; cb_world := w |}
       | _ =>
           {| cb_out :=
                Raise (Exn TypeError
                           "<lambda>() takes exactly one positional argument");
              cb_new := []; cb_world := w |}
       end |}.

(** [lambda o: o.get()] *)
Definition unwrap : callable nat :=
  {| fname := "unwrap";
     fbody := fun args h w =>
       {| cb_out :=
            match args with
            | [VOptional l] =>
                match h !! l with
                | Some x =>
                    if is_None x
                    then Raise (Exn TypeError "Optional contains no object")
                    else Return x
                | None =>
                    Raise (Exn AttributeError
                               (no_attribute (VOptional l) "_obj"))
                end
            | [o] => Raise (Exn AttributeError (no_attribute o "get"))
            | _ =>
                Raise (Exn TypeError
                           "<lambda>() takes exactly one positional argument")
            end;
          cb_new := []; cb_world := w |} |}.

(** A state with an empty container at address 0 and one holding 7 at
    address 1. *)
Definition s2 : state nat :=
  {| heap := [VNone; VInt 7]; world := 0; trace := [] |}.

(** ** Running the methods *)

Section Run.

Context {W : Type}.
Implicit Types (s : state W) (self obj v x : value) (f : callable W).

Lemma slot_alloc_old s self x y :
  slot s self = Some x -> slot (alloc y s) self = Some x.
Proof.
  destruct self; simpl; try discriminate.
  apply lookup_app_l_Some.
Qed.

Lemma slot_alloc_new s y :
  slot (alloc y s) (VOptional (length (heap s))) = Some y.
Proof. simpl. apply list_lookup_middle. reflexivity. Qed.

Lemma slot_after_call s self x f args :
  slot s self = Some x -> slot (after_call f args s) self = Some x.
Proof.
  destruct self; simpl; try discriminate.
  apply lookup_app_l_Some.
Qed.

Lemma call_run f args s :
  call f args s = (result_of f args s, after_call f args s).
Proof. reflexivity. Qed.

Lemma trace_after_call f args s :
  trace (after_call f args s) = (trace s ++ [Call (fname f) args])%list.
Proof. reflexivity. Qed.

Lemma getattr_obj_run s self x :
  slot s self = Some x -> Optional.getattr_obj self s = (Return x, s).
Proof.
  destruct self; simpl; try discriminate.
  intros ->. reflexivity.
Qed.

Lemma getattr_obj_inv s self x s' :
  Optional.getattr_obj self s = (Return x, s') -> slot s self = Some x /\ s' = s.
Proof.
  destruct self; simpl; try discriminate.
  destruct (heap s !! l); intros [= <- <-]; auto.
Qed.

Lemma is_present_run s self x :
  slot s self = Some x ->
  Optional.is_present self s = (Return (negb (is_None x)), s).
Proof.
  intros H. unfold Optional.is_present, bind.
  rewrite (getattr_obj_run _ _ _ H). reflexivity.
Qed.

Lemma is_empty_run s self x :
  slot s self = Some x ->
  Optional.is_empty self s = (Return (is_None x), s).
Proof.
  intros H. unfold Optional.is_empty, bind.
  rewrite (getattr_obj_run _ _ _ H). reflexivity.
Qed.

Lemma method_run {A} s self x name (body : value -> M A) :
  slot s self = Some x -> Optional.method self name body s = body self s.
Proof. destruct self; cbn [slot]; try discriminate. reflexivity. Qed.

Lemma method_inv {A} s self name (body : value -> M A) a s' :
  Optional.method self name body s = (Return a, s') ->
  body self s = (Return a, s').
Proof. destruct self; cbn [Optional.method]; try discriminate. auto. Qed.

Lemma is_None_false x : x <> VNone -> is_None x = false.
Proof. destruct x; simpl; congruence. Qed.

Lemma is_None_true x : is_None x = true -> x = VNone.
Proof. destruct x; simpl; congruence. Qed.

Lemma get_run_present s self x :
  slot s self = Some x -> x <> VNone -> Optional.get self s = (Return x, s).
Proof.
  intros H Hx. unfold Optional.get, bind.
  rewrite (getattr_obj_run _ _ _ H), (is_None_false _ Hx).
  apply getattr_obj_run, H.
Qed.

Lemma get_run_empty s self :
  slot s self = Some VNone ->
  Optional.get self s =
    (Raise (Exn TypeError "Optional contains no object"), s).
Proof.
  intros H. unfold Optional.get, bind.
  rewrite (getattr_obj_run _ _ _ H). reflexivity.
Qed.

Lemma cls_call_run obj s :
  Optional.cls_call obj s =
    (Return (VOptional (length (heap s))), alloc obj s).
Proof. reflexivity. Qed.

End Run.

(** ** Construction *)

Section Construction.

Context {W : Type}.
Implicit Types (s : state W) (self obj v x : value).

(** Calling the class directly, [Optional(v)], raises nothing. For every
    value [v] and in every state it returns a new instance whose [_obj] is
    [v], exactly as the factories' own [cls(obj)] does; [__call__] is not
    consulted and the trace and the caller's state are untouched. *)
Lemma cls_call_never_raises v s :
  Optional.cls_call v s = (Return (VOptional (length (heap s))), alloc v s)
  /\ slot (alloc v s) (VOptional (length (heap s))) = Some v
  /\ Optional.is_present (VOptional (length (heap s))) (alloc v s)
     = (Return (negb (is_None v)), alloc v s)
  /\ (forall e s', Optional.cls_call v s <> (Raise e, s')).
Proof.
  split; [reflexivity|].
  split; [apply slot_alloc_new|].
  split; [apply is_present_run, slot_alloc_new|].
  intros e s'. rewrite cls_call_run. discriminate.
Qed.

(** C3: [of(v)] fails if and only if [v] is [None], and the failure is the
    [AttributeError] "The object provided is None, not allowed", raised
    before anything is created; for every other [v] it returns a new
    container on which [is_present()] is [True] and [get()] returns [v]. *)
Theorem of_spec v s :
  ((exists e s', Optional.of_ v s = (Raise e, s')) <-> v = VNone)
  /\ (v = VNone ->
      Optional.of_ v s =
        (Raise (Exn AttributeError "The object provided is None, not allowed"), s))
  /\ (v <> VNone ->
      let o := VOptional (length (heap s)) in
      let s' := alloc v s in
      Optional.of_ v s = (Return o, s')
      /\ Optional.is_present o s' = (Return true, s')
      /\ Optional.get o s' = (Return v, s')).
Proof.
  split; [split|split].
  - intros (e & s' & H). unfold Optional.of_ in H.
    destruct (is_None v) eqn:E; [now apply is_None_true|].
    rewrite cls_call_run in H. discriminate.
  - intros ->. eexists _, _. reflexivity.
  - intros ->. reflexivity.
  - intros Hv o s'. subst o s'. unfold Optional.of_.
    rewrite (is_None_false _ Hv).
    split; [reflexivity|].
    pose proof (slot_alloc_new s v) as Hs.
    split.
    + rewrite (is_present_run _ _ _ Hs), (is_None_false _ Hv). reflexivity.
    + apply get_run_present; assumption.
Qed.

(** C4: the container returned by [empty()] answers [False] to
    [is_present()], [True] to [is_empty()], and [get()] on it raises the
    [TypeError] "Optional contains no object"; on every container that
    holds a value other than [None], [get()] returns that value and
    changes nothing. *)
Theorem empty_get_spec s :
  (let o := VOptional (length (heap s)) in
   let s' := alloc VNone s in
   Optional.empty s = (Return o, s')
   /\ Optional.is_present o s' = (Return false, s')
   /\ Optional.is_empty o s' = (Return true, s')
   /\ Optional.get o s' =
        (Raise (Exn TypeError "Optional contains no object"), s'))
  /\ (forall self v,
        slot s self = Some v -> v <> VNone ->
        Optional.get self s = (Return v, s)).
Proof.
  split.
  - intros o s'. subst o s'. pose proof (slot_alloc_new s VNone) as Hs.
    split; [reflexivity|].
    split; [apply (is_present_run _ _ _ Hs)|].
    split; [apply (is_empty_run _ _ _ Hs)|].
    apply get_run_empty, Hs.
  - intros self v. apply get_run_present.
Qed.

End Construction.

(** ** Extraction with a fallback *)

Lemma calls_to_snoc (f : string) (args : list value) (tr : list event) :
  calls_to f (tr ++ [Call f args]) = S (calls_to f tr).
Proof.
  unfold calls_to. rewrite List.filter_app, List.length_app. simpl.
  rewrite String.eqb_refl. simpl. lia.
Qed.

Section Fallback.

Context {W : Type}.
Implicit Types (s : state W) (self obj v x : value).

(** C9: on an empty container [or_else_get(provider)] calls [provider]
    once, with no argument, and returns what it returns (or raises what it
    raises); on a container holding [v] it returns [v] and leaves the state
    as it was, so [provider] is not called. *)
Theorem or_else_get_spec self (provider : callable W) s :
  (slot s self = Some VNone ->
     let r := Optional.or_else_get self provider s in
     fst r = result_of provider [] s
     /\ snd r = after_call provider [] s
     /\ trace (snd r) = (trace s ++ [Call (fname provider) []])%list
     /\ calls_to (fname provider) (trace (snd r))
        = S (calls_to (fname provider) (trace s)))
  /\ (forall v,
        slot s self = Some v -> v <> VNone ->
        let r := Optional.or_else_get self provider s in
        r = (Return v, s)
        /\ calls_to (fname provider) (trace (snd r))
           = calls_to (fname provider) (trace s)).
Proof.
  split.
  - intros H r. subst r. unfold Optional.or_else_get, bind.
    rewrite (method_run _ _ _ _ _ H), (is_present_run _ _ _ H). cbn [negb is_None].
    rewrite call_run. cbn [fst snd]. rewrite trace_after_call.
    repeat split. apply calls_to_snoc.
  - intros v H Hv r. subst r. unfold Optional.or_else_get, bind.
    rewrite (method_run _ _ _ _ _ H), (is_present_run _ _ _ H), (is_None_false _ Hv). cbn [negb].
    rewrite (getattr_obj_run _ _ _ H). split; reflexivity.
Qed.

(** C2 (the code departs from it): on an empty container
    [or_else_throw()], called without an argument, raises no error made for
    the missing value. The default provider [TypeError.__new__], called with
    no argument, creates no exception: the call itself fails for want of
    arguments, the statement [raise] is not reached (the method does exactly
    what [or_else_get] does with that provider), and the error that comes
    out is not the one [get()] raises on the same container. On a container
    holding [v] the method returns [v] and calls nothing, whatever the
    provider. *)
Theorem or_else_throw_default_arity_error self s :
  (slot s self = Some VNone ->
     let e := Exn TypeError "TypeError.__new__(): not enough arguments" in
     result_of (TypeError_new (W := W)) [] s = Raise e
     /\ Optional.or_else_throw self None s
        = (Raise e, after_call TypeError_new [] s)
     /\ Optional.or_else_throw self None s
        = Optional.or_else_get self TypeError_new s
     /\ Optional.get self s
        = (Raise (Exn TypeError "Optional contains no object"), s)
     /\ fst (Optional.or_else_throw self None s)
        <> fst (Optional.get self s))
  /\ (forall v (exception_provider : option (callable W)),
        slot s self = Some v -> v <> VNone ->
        Optional.or_else_throw self exception_provider s = (Return v, s)).
Proof.
  split.
  - intros H e. subst e.
    assert (E : Optional.or_else_throw self None s
                = (Raise (Exn TypeError
                              "TypeError.__new__(): not enough arguments"),
                   after_call TypeError_new [] s)).
    { unfold Optional.or_else_throw, bind.
      rewrite (method_run _ _ _ _ _ H), (is_empty_run _ _ _ H).
      reflexivity. }
    split; [reflexivity|]. split; [exact E|].
    split; [|split; [apply (get_run_empty _ _ H)|]].
    + rewrite E. unfold Optional.or_else_get, bind.
      rewrite (method_run _ _ _ _ _ H), (is_present_run _ _ _ H).
      reflexivity.
    + rewrite E, (get_run_empty _ _ H). cbn [fst]. discriminate.
  - intros v ep H Hv. unfold Optional.or_else_throw, bind.
    rewrite (method_run _ _ _ _ _ H), (is_empty_run _ _ _ H),
      (is_None_false _ Hv).
    apply getattr_obj_run, H.
Qed.

End Fallback.

(** ** Transformations *)

Section Transformations.

Context {W : Type}.
Implicit Types (s : state W) (self obj v x : value).

Lemma is_present_inv s self b s' :
  Optional.is_present self s = (Return b, s') ->
  exists x, slot s self = Some x /\ b = negb (is_None x) /\ s' = s.
Proof.
  unfold Optional.is_present, bind.
  destruct (Optional.getattr_obj self s) as [[x|e] s1] eqn:E;
    [|discriminate].
  apply getattr_obj_inv in E as [E ->].
  intros [= <- <-]. eauto.
Qed.

Lemma is_empty_inv s self b s' :
  Optional.is_empty self s = (Return b, s') ->
  exists x, slot s self = Some x /\ b = is_None x /\ s' = s.
Proof.
  unfold Optional.is_empty, bind.
  destruct (Optional.getattr_obj self s) as [[x|e] s1] eqn:E;
    [|discriminate].
  apply getattr_obj_inv in E as [E ->].
  intros [= <- <-]. eauto.
Qed.

Lemma map_run_empty self (function : callable W) s :
  slot s self = Some VNone ->
  Optional.map self function s
    = (Return (VOptional (length (heap s))), alloc VNone s).
Proof.
  intros H. unfold Optional.map, bind.
  rewrite (method_run _ _ _ _ _ H), (is_present_run _ _ _ H). reflexivity.
Qed.

Lemma map_run_present self (function : callable W) s v :
  slot s self = Some v -> v <> VNone ->
  Optional.map self function s
    = bind (call function [v]) Optional.of_nullable s.
Proof.
  intros H Hv. unfold Optional.map, bind.
  rewrite (method_run _ _ _ _ _ H), (is_present_run _ _ _ H), (is_None_false _ Hv). cbn [negb].
  rewrite (getattr_obj_run _ _ _ H). reflexivity.
Qed.

Lemma filter_run_empty self (predicate : callable W) s :
  slot s self = Some VNone ->
  Optional.filter self predicate s = (Return self, s).
Proof.
  intros H. unfold Optional.filter, bind.
  rewrite (method_run _ _ _ _ _ H), (is_empty_run _ _ _ H). reflexivity.
Qed.

Lemma filter_run_present self (predicate : callable W) s v :
  slot s self = Some v -> v <> VNone ->
  Optional.filter self predicate s
    = bind (call predicate [v])
           (fun c => if truthy c then ret self else Optional.empty) s.
Proof.
  intros H Hv. unfold Optional.filter, bind.
  rewrite (method_run _ _ _ _ _ H), (is_empty_run _ _ _ H), (is_None_false _ Hv).
  rewrite (getattr_obj_run _ _ _ H). reflexivity.
Qed.

(** C6: on an empty container [map(function)] returns a new empty
    container and calls nothing (the trace is unchanged). On a container
    holding [v] it calls [function] once, on [v]; when the call returns
    [y] the result is a new container whose [_obj] is [y], as
    [of_nullable(y)] makes it, so it is empty exactly when [y] is [None];
    when the call raises, the error propagates. *)
Theorem map_spec self (function : callable W) s :
  (slot s self = Some VNone ->
     let o := VOptional (length (heap s)) in
     let s' := alloc VNone s in
     Optional.map self function s = (Return o, s')
     /\ Optional.is_empty o s' = (Return true, s')
     /\ trace s' = trace s)
  /\ (forall v,
        slot s self = Some v -> v <> VNone ->
        let r := Optional.map self function s in
        let s1 := after_call function [v] s in
        trace (snd r) = (trace s ++ [Call (fname function) [v]])%list
        /\ calls_to (fname function) (trace (snd r))
           = S (calls_to (fname function) (trace s))
        /\ match result_of function [v] s with
           | Return y =>
               let o := VOptional (length (heap s1)) in
               r = (Return o, alloc y s1)
               /\ r = Optional.of_nullable y s1
               /\ slot (alloc y s1) o = Some y
               /\ Optional.is_empty o (alloc y s1)
                  = (Return (is_None y), alloc y s1)
           | Raise e => r = (Raise e, s1)
           end).
Proof.
  split.
  - intros H o s'. subst o s'.
    split; [apply map_run_empty, H|].
    split; [|reflexivity].
    apply (is_empty_run _ _ VNone), slot_alloc_new.
  - intros v H Hv r s1. subst r s1.
    rewrite (map_run_present _ _ _ _ H Hv). unfold bind.
    rewrite call_run.
    destruct (result_of function [v] s) as [y|e].
    + unfold Optional.of_nullable. rewrite cls_call_run. cbn [snd].
      split; [apply trace_after_call|].
      split; [cbn [alloc trace]; rewrite trace_after_call;
              apply calls_to_snoc|].
      cbv beta iota zeta.
      split; [reflexivity|]. split; [reflexivity|].
      split; [apply slot_alloc_new|].
      apply is_empty_run, slot_alloc_new.
    + cbn [snd].
      split; [apply trace_after_call|].
      split; [rewrite trace_after_call; apply calls_to_snoc|reflexivity].
Qed.

(** C7: on an empty container [filter(predicate)] returns the container it
    was called on and changes nothing. On a container holding [v], when
    [predicate(v)] returns a true value the result is that same container,
    still holding [v]; when it returns a false value the result is a new
    empty container. *)
Theorem filter_spec self (predicate : callable W) s :
  (slot s self = Some VNone ->
     Optional.filter self predicate s = (Return self, s))
  /\ (forall v c,
        slot s self = Some v -> v <> VNone ->
        result_of predicate [v] s = Return c ->
        let s1 := after_call predicate [v] s in
        (truthy c = true ->
           Optional.filter self predicate s = (Return self, s1)
           /\ slot s1 self = Some v
           /\ Optional.get self s1 = (Return v, s1))
        /\ (truthy c = false ->
              let o := VOptional (length (heap s1)) in
              Optional.filter self predicate s = (Return o, alloc VNone s1)
              /\ Optional.is_empty o (alloc VNone s1)
                 = (Return true, alloc VNone s1))).
Proof.
  split; [apply filter_run_empty|].
  intros v c H Hv Hc s1. subst s1.
  rewrite (filter_run_present _ _ _ _ H Hv). unfold bind.
  rewrite call_run, Hc.
  pose proof (slot_after_call s self v predicate [v] H) as H1.
  split; intros ->.
  - split; [reflexivity|]. split; [exact H1|].
    apply get_run_present; assumption.
  - split; [reflexivity|].
    apply (is_empty_run _ _ VNone), slot_alloc_new.
Qed.

(** C10: [filter(predicate)] on an empty container does not call
    [predicate]: the trace and the caller's state are the same after the
    call as before. *)
Theorem filter_empty_never_calls self (predicate : callable W) s :
  slot s self = Some VNone ->
  let r := Optional.filter self predicate s in
  trace (snd r) = trace s
  /\ calls_to (fname predicate) (trace (snd r))
     = calls_to (fname predicate) (trace s)
  /\ world (snd r) = world s.
Proof.
  intros H r. subst r. rewrite (filter_run_empty _ _ _ H).
  repeat split.
Qed.

End Transformations.

(** ** The invariant of the representation *)

Section Invariant.

Context {W : Type}.
Implicit Types (s : state W) (self obj v x r : value).

Lemma cls_call_slot obj s r s' :
  Optional.cls_call obj s = (Return r, s') -> slot s' r = Some obj.
Proof.
  rewrite cls_call_run. intros [= <- <-]. apply slot_alloc_new.
Qed.

(** Whatever a factory or a combinator returns is an instance that exists
    in the state it leaves. *)
Lemma produce_slot (p : producer) s r s' :
  produce p s = (Return r, s') -> exists x, slot s' r = Some x.
Proof.
  destruct p as [obj|obj| |self f|self f]; cbn [produce].
  - unfold Optional.of_. destruct (is_None obj); [discriminate|].
    intros H. eexists. eapply cls_call_slot, H.
  - intros H. eexists. eapply cls_call_slot, H.
  - intros H. eexists. eapply cls_call_slot, H.
  - unfold Optional.map, bind.
    destruct (Optional.method self "is_present" Optional.is_present s)
      as [[b|e] s1] eqn:E; [|discriminate].
    apply method_inv, is_present_inv in E as (x & Hx & -> & ->).
    destruct (negb (is_None x)).
    + rewrite (getattr_obj_run _ _ _ Hx), call_run.
      destruct (result_of f [x] s); [|discriminate].
      intros H. eexists. eapply cls_call_slot, H.
    + intros H. eexists. eapply cls_call_slot, H.
  - unfold Optional.filter, bind.
    destruct (Optional.method self "is_empty" Optional.is_empty s)
      as [[b|e] s1] eqn:E; [|discriminate].
    apply method_inv, is_empty_inv in E as (x & Hx & -> & ->).
    destruct (is_None x).
    + cbn. intros [= <- <-]. eauto.
    + rewrite (getattr_obj_run _ _ _ Hx), call_run.
      destruct (result_of f [x] s) as [c|e]; [|discriminate].
      destruct (truthy c).
      * intros [= <- <-]. eauto using slot_after_call.
      * intros H. eexists. eapply cls_call_slot, H.
Qed.

Lemma get_returns_not_None s r x v s' :
  slot s r = Some x -> Optional.get r s = (Return v, s') -> v <> VNone.
Proof.
  intros H. unfold Optional.get, bind.
  rewrite (getattr_obj_run _ _ _ H).
  destruct (is_None x) eqn:E; [discriminate|].
  rewrite (getattr_obj_run _ _ _ H). intros [= <- <-] ->. discriminate.
Qed.

(** C5: every container returned by [of], [of_nullable], [empty], [map] or
    [filter] is an instance with one slot [_obj], and its queries are
    decided by that slot alone: [is_present()] is [True] exactly when the
    slot is not [None], [is_empty()] is its negation, [get()] returns the
    slot when it is not [None], and [get()] never returns [None]. *)
Theorem produced_invariant (p : producer) s r s' :
  produce p s = (Return r, s') ->
  exists x,
    slot s' r = Some x
    /\ Optional.is_present r s' = (Return (negb (is_None x)), s')
    /\ Optional.is_empty r s' = (Return (is_None x), s')
    /\ (Optional.is_present r s' = (Return true, s') <-> x <> VNone)
    /\ (x <> VNone -> Optional.get r s' = (Return x, s'))
    /\ (forall v s'', Optional.get r s' = (Return v, s'') -> v <> VNone).
Proof.
  intros H. destruct (produce_slot _ _ _ _ H) as [x Hx]. exists x.
  split; [exact Hx|].
  split; [apply is_present_run, Hx|].
  split; [apply is_empty_run, Hx|].
  split; [|split].
  - rewrite (is_present_run _ _ _ Hx). split.
    + intros [= E] ->. discriminate.
    + intros Hn. rewrite (is_None_false _ Hn). reflexivity.
  - apply get_run_present, Hx.
  - intros v s''. apply get_returns_not_None with (x := x), Hx.
Qed.

End Invariant.

(** ** The composition law of [map] *)

Section Composition.

Context {W : Type}.
Implicit Types (s : state W) (self obj v x y z : value).
Local Open Scope py_scope.

(** C8: for [v], [y] and [z] other than [None], where [f(v)] returns [y]
    and [g(y)] returns [z], both [of(v).map(f).map(g)] and
    [of(v).map(compose(g, f))] return a container holding [z]. The two
    chains call [g] on [y] at different moments (the first once the
    container holding [y] exists, the second inside the composition), and
    that [g(y)] is [z] is asked at both; nothing is asked of [f] or [g] on
    any other input. The two results are distinct instances. *)
Theorem map_composition v (f g : callable W) y z s :
  v <> VNone ->
  result_of f [v] (alloc v s) = Return y ->
  y <> VNone ->
  result_of g [y] (alloc y (after_call f [v] (alloc v s))) = Return z ->
  result_of g [y] (after_call f [v] (alloc v s)) = Return z ->
  z <> VNone ->
  exists o1 t1 o2 t2,
    (do a <- Optional.of_ v ;;
     do b <- Optional.map a f ;;
     Optional.map b g) s = (Return o1, t1)
    /\ (do a <- Optional.of_ v ;;
        Optional.map a (compose g f)) s = (Return o2, t2)
    /\ slot t1 o1 = Some z
    /\ slot t2 o2 = Some z
    /\ Optional.get o1 t1 = (Return z, t1)
    /\ Optional.get o2 t2 = (Return z, t2).
Proof.
  intros Hv Hf Hy Hgy Hgy' Hz.
  set (s1 := alloc v s) in *.
  set (a := VOptional (length (heap s))).
  assert (Ha : slot s1 a = Some v) by apply slot_alloc_new.
  set (s2 := after_call f [v] s1) in *.
  set (s3 := alloc y s2) in *.
  set (b := VOptional (length (heap s2))).
  assert (Hb : slot s3 b = Some y) by apply slot_alloc_new.
  set (s4 := after_call g [y] s3).
  (* the chain of two maps *)
  assert (L : (do a <- Optional.of_ v ;;
               do b <- Optional.map a f ;;
               Optional.map b g) s
              = (Return (VOptional (length (heap s4))), alloc z s4)).
  { unfold bind at 1. unfold Optional.of_.
    rewrite (is_None_false _ Hv), cls_call_run. fold s1 a.
    unfold bind at 1.
    rewrite (map_run_present _ _ _ _ Ha Hv). unfold bind at 1.
    rewrite call_run, Hf. unfold Optional.of_nullable.
    rewrite cls_call_run. fold s2 s3 b.
    rewrite (map_run_present _ _ _ _ Hb Hy). unfold bind.
    rewrite call_run, Hgy. reflexivity. }
  (* the map of the composition *)
  set (t := after_call (compose g f) [v] s1).
  assert (Hc : result_of (compose g f) [v] s1 = Return z).
  { unfold result_of, call, compose. cbn [fst fbody].
    unfold result_of, call in Hf. cbn [fst] in Hf. rewrite Hf.
    cbn [cb_out]. exact Hgy'. }
  assert (R : (do a <- Optional.of_ v ;;
               Optional.map a (compose g f)) s
              = (Return (VOptional (length (heap t))), alloc z t)).
  { unfold bind at 1. unfold Optional.of_.
    rewrite (is_None_false _ Hv), cls_call_run. fold s1 a.
    rewrite (map_run_present _ _ _ _ Ha Hv). unfold bind.
    rewrite call_run, Hc. reflexivity. }
  eexists _, _, _, _.
  split; [exact L|]. split; [exact R|].
  split; [apply slot_alloc_new|]. split; [apply slot_alloc_new|].
  split; apply get_run_present; try apply slot_alloc_new; exact Hz.
Qed.

End Composition.

(** ** The statements at sample inputs *)

(** C1 (the code departs from it): [Optional("abcd")], written by a caller
    in the initial state, raises no error: it returns the instance at
    address 0, which holds ["abcd"], and [get()] on it returns ["abcd"]. *)
Theorem direct_construction_abcd :
  let s' := {| heap := [VStr "abcd"]; world := 0; trace := [] |} in
  Optional.cls_call (VStr "abcd") s0 = (Return (VOptional 0), s')
  /\ Optional.is_present (VOptional 0) s' = (Return true, s')
  /\ Optional.get (VOptional 0) s' = (Return (VStr "abcd"), s')
  /\ (forall e t, Optional.cls_call (VStr "abcd") s0 <> (Raise e, t)).
Proof.
  intros s'. subst s'.
  split; [reflexivity|]. split; [reflexivity|]. split; [reflexivity|].
  apply (cls_call_never_raises (VStr "abcd") s0).
Qed.

(** [Optional(None)] likewise returns an instance, an empty one. *)
Example direct_construction_None :
  Optional.cls_call VNone s0
  = (Return (VOptional 0), {| heap := [VNone]; world := 0; trace := [] |}).
Proof. reflexivity. Qed.

(** [test_filled_optional] *)
Example test_filled_optional :
  (do optional <- Optional.of_ (VStr "abcd") ;;
   do p <- Optional.is_present optional ;;
   do x <- Optional.get optional ;;
   ret (p, x))%py s0
  = (Return (true, VStr "abcd"), alloc (VStr "abcd") s0).
Proof. reflexivity. Qed.

(** [test_empty_optional] *)
Example test_empty_optional :
  (do optional <- Optional.empty ;; Optional.is_present optional)%py s0
  = (Return false, alloc VNone s0)
  /\ (do optional <- Optional.empty ;; Optional.get optional)%py s0
     = (Raise (Exn TypeError "Optional contains no object"), alloc VNone s0).
Proof. split; reflexivity. Qed.

(** [test_map] *)
Example test_map :
  fst ((do a <- Optional.of_ (VStr "abcd") ;;
        do b <- Optional.map a str_upper ;;
        Optional.or_else_throw b None)%py s0)
  = Return (VStr "ABCD").
Proof. reflexivity. Qed.

(** [test_map_empty] *)
Example test_map_empty :
  fst ((do a <- Optional.of_nullable VNone ;;
        do opt <- Optional.map a str_upper ;;
        Optional.is_empty opt)%py s0)
  = Return true.
Proof. reflexivity. Qed.

(** The error of [or_else_throw()] and the error of [get()] on an empty
    container have the same class and different messages. *)
Example or_else_throw_default_message :
  fst (Optional.or_else_throw (VOptional 0) None s2)
  = Raise (Exn TypeError "TypeError.__new__(): not enough arguments")
  /\ fst (Optional.get (VOptional 0) s2)
     = Raise (Exn TypeError "Optional contains no object").
Proof. split; reflexivity. Qed.

(** A provider that returns an exception instance, a class, or something
    else: [raise] raises the instance, an instance of the class, or a
    [TypeError]. *)
Example or_else_throw_custom :
  let returning (x : value) : callable nat :=
    {| fname := "provider";
       fbody := fun _ _ w => {| cb_out := Return x; cb_new := []; cb_world := w |} |} in
  fst (Optional.or_else_throw (VOptional 0)
         (Some (returning (VExcInstance (Exn (OtherError "KeyError") "k")))) s2)
  = Raise (Exn (OtherError "KeyError") "k")
  /\ fst (Optional.or_else_throw (VOptional 0)
            (Some (returning (VExcClass (OtherError "KeyError")))) s2)
     = Raise (Exn (OtherError "KeyError") "")
  /\ fst (Optional.or_else_throw (VOptional 0)
            (Some (returning (VInt 3))) s2)
     = Raise (Exn TypeError "exceptions must derive from BaseException").
Proof. repeat split. Qed.

Lemma of_spec_witness :
  Optional.of_ (VStr "abcd") s0
  = (Return (VOptional 0), alloc (VStr "abcd") s0)
  /\ Optional.is_present (VOptional 0) (alloc (VStr "abcd") s0)
     = (Return true, alloc (VStr "abcd") s0)
  /\ Optional.get (VOptional 0) (alloc (VStr "abcd") s0)
     = (Return (VStr "abcd"), alloc (VStr "abcd") s0).
Proof.
  apply (proj2 (proj2 (of_spec (VStr "abcd") s0))). discriminate.
Defined.

Lemma empty_get_spec_witness :
  Optional.get (VOptional 1) s2 = (Return (VInt 7), s2).
Proof.
  apply (proj2 (empty_get_spec s2) (VOptional 1) (VInt 7)).
  - reflexivity.
  - discriminate.
Defined.

Lemma or_else_get_spec_witness :
  (fst (Optional.or_else_get (VOptional 0) provider42 s2)
   = result_of provider42 [] s2
   /\ calls_to "provider42"
        (trace (snd (Optional.or_else_get (VOptional 0) provider42 s2)))
      = S (calls_to "provider42" (trace s2)))
  /\ Optional.or_else_get (VOptional 1) provider42 s2 = (Return (VInt 7), s2).
Proof.
  pose proof (or_else_get_spec (VOptional 0) provider42 s2) as [He _].
  pose proof (or_else_get_spec (VOptional 1) provider42 s2) as [_ Hp].
  split.
  - destruct (He eq_refl) as (H1 & _ & _ & H4). split; [exact H1|exact H4].
  - apply (Hp (VInt 7)); [reflexivity|discriminate].
Defined.

Lemma or_else_throw_default_arity_error_witness :
  Optional.or_else_throw (VOptional 0) None s2
  = (Raise (Exn TypeError "TypeError.__new__(): not enough arguments"),
     after_call TypeError_new [] s2)
  /\ Optional.get (VOptional 0) s2
     = (Raise (Exn TypeError "Optional contains no object"), s2)
  /\ fst (Optional.or_else_throw (VOptional 0) None s2)
     <> fst (Optional.get (VOptional 0) s2)
  /\ Optional.or_else_throw (VOptional 1) None s2 = (Return (VInt 7), s2).
Proof.
  pose proof (or_else_throw_default_arity_error (VOptional 0) s2) as [He _].
  pose proof (or_else_throw_default_arity_error (VOptional 1) s2) as [_ Hp].
  destruct (He eq_refl) as (_ & H2 & _ & H4 & H5).
  split; [exact H2|]. split; [exact H4|]. split; [exact H5|].
  apply (Hp (VInt 7) None); [reflexivity|discriminate].
Defined.

Lemma map_spec_witness :
  Optional.map (VOptional 0) str_upper s2
  = (Return (VOptional 2), alloc VNone s2)
  /\ calls_to "is_positive"
       (trace (snd (Optional.map (VOptional 1) is_positive s2)))
     = S (calls_to "is_positive" (trace s2)).
Proof.
  pose proof (map_spec (VOptional 0) str_upper s2) as [He _].
  pose proof (map_spec (VOptional 1) is_positive s2) as [_ Hp].
  split.
  - apply (He eq_refl).
  - apply (Hp (VInt 7)); [reflexivity|discriminate].
Defined.

Lemma filter_spec_witness :
  Optional.filter (VOptional 0) is_positive s2 = (Return (VOptional 0), s2)
  /\ Optional.filter (VOptional 1) is_positive s2
     = (Return (VOptional 1), after_call is_positive [VInt 7] s2)
  /\ slot (after_call is_positive [VInt 7] s2) (VOptional 1) = Some (VInt 7).
Proof.
  pose proof (filter_spec (VOptional 0) is_positive s2) as [He _].
  pose proof (filter_spec (VOptional 1) is_positive s2) as [_ Hp].
  split.
  - apply (He eq_refl).
  - destruct (Hp (VInt 7) (VBool true)) as [Ht _];
      [reflexivity|discriminate|reflexivity|].
    destruct (Ht eq_refl) as (H1 & H2 & _). split; [exact H1|exact H2].
Defined.

Lemma filter_empty_never_calls_witness :
  slot s2 (VOptional 0) = Some VNone
  /\ calls_to "is_positive"
       (trace (snd (Optional.filter (VOptional 0) is_positive s2)))
     = calls_to "is_positive" (trace s2)
  /\ world (snd (Optional.filter (VOptional 0) is_positive s2)) = world s2.
Proof.
  split; [reflexivity|].
  destruct (filter_empty_never_calls (VOptional 0) is_positive s2 eq_refl)
    as (_ & H2 & H3).
  split; [exact H2|exact H3].
Defined.

Lemma produced_invariant_witness :
  produce (By_map (VOptional 1) is_positive) s2
  = (Return (VOptional 2),
     alloc (VBool true) (after_call is_positive [VInt 7] s2))
  /\ exists x,
       slot (alloc (VBool true) (after_call is_positive [VInt 7] s2))
            (VOptional 2) = Some x
       /\ (forall v t,
             Optional.get (VOptional 2)
               (alloc (VBool true) (after_call is_positive [VInt 7] s2))
             = (Return v, t) -> v <> VNone).
Proof.
  split; [reflexivity|].
  destruct (produced_invariant (By_map (VOptional 1) is_positive) s2
              (VOptional 2)
              (alloc (VBool true) (after_call is_positive [VInt 7] s2))
              eq_refl)
    as (x & H1 & _ & _ & _ & _ & H6).
  exists x. split; [exact H1|exact H6].
Defined.

Lemma map_composition_witness :
  (exists o1 t1 o2 t2,
     (do a <- Optional.of_ (VStr "abcd") ;;
      do b <- Optional.map a str_upper ;;
      Optional.map b str_len)%py s0 = (Return o1, t1)
     /\ (do a <- Optional.of_ (VStr "abcd") ;;
         Optional.map a (compose str_len str_upper))%py s0 = (Return o2, t2)
     /\ Optional.get o1 t1 = (Return (VInt 4), t1)
     /\ Optional.get o2 t2 = (Return (VInt 4), t2))
  /\ (exists o1 t1 o2 t2,
        (do a <- Optional.of_ (VInt 7) ;;
         do b <- Optional.map a wrap ;;
         Optional.map b unwrap)%py s0 = (Return o1, t1)
        /\ (do a <- Optional.of_ (VInt 7) ;;
            Optional.map a (compose unwrap wrap))%py s0 = (Return o2, t2)
        /\ Optional.get o1 t1 = (Return (VInt 7), t1)
        /\ Optional.get o2 t2 = (Return (VInt 7), t2)).
Proof.
  split.
  - destruct (map_composition (VStr "abcd") str_upper str_len
                (VStr "ABCD") (VInt 4) s0)
      as (o1 & t1 & o2 & t2 & H1 & H2 & _ & _ & H5 & H6).
    + discriminate.
    + reflexivity.
    + discriminate.
    + reflexivity.
    + reflexivity.
    + discriminate.
    + exists o1, t1, o2, t2. repeat split; assumption.
  - destruct (map_composition (VInt 7) wrap unwrap (VOptional 1) (VInt 7) s0)
      as (o1 & t1 & o2 & t2 & H1 & H2 & _ & _ & H5 & H6).
    + discriminate.
    + reflexivity.
    + discriminate.
    + reflexivity.
    + reflexivity.
    + discriminate.
    + exists o1, t1, o2, t2. repeat split; assumption.
Defined.

(** ** The remaining methods *)

Section Remaining.

Context {W : Type}.
Implicit Types (s : state W) (self obj v x d : value).
Local Open Scope py_scope.

Lemma raise_stmt_run x s :
  raise_stmt (A := value) x s = (Raise (raised_by x), s).
Proof. destruct x; reflexivity. Qed.

Lemma getattr_obj_raises s self :
  slot s self = None ->
  exists msg,
    Optional.getattr_obj self s = (Raise (Exn AttributeError msg), s).
Proof.
  destruct self; cbn [slot Optional.getattr_obj]; intros H;
    try (eexists; reflexivity).
  rewrite H. eexists. reflexivity.
Qed.

Lemma or_else_run_present self d s v :
  slot s self = Some v -> v <> VNone ->
  Optional.or_else self d s = (Return v, s).
Proof.
  intros H Hv. unfold Optional.or_else, bind.
  rewrite (method_run _ _ _ _ _ H), (is_present_run _ _ _ H), (is_None_false _ Hv). cbn [negb].
  apply getattr_obj_run, H.
Qed.

Lemma or_else_run_empty self d s :
  slot s self = Some VNone -> Optional.or_else self d s = (Return d, s).
Proof.
  intros H. unfold Optional.or_else, bind.
  rewrite (method_run _ _ _ _ _ H), (is_present_run _ _ _ H). reflexivity.
Qed.

(** [or_else(other_value)] returns the held value of a container that holds
    one and [other_value], whatever it is, on an empty container; either way
    it calls nothing and leaves the state as it was. *)
Theorem or_else_spec self d s :
  (forall v, slot s self = Some v -> v <> VNone ->
     Optional.or_else self d s = (Return v, s))
  /\ (slot s self = Some VNone ->
      Optional.or_else self d s = (Return d, s)).
Proof.
  split.
  - intros v. apply or_else_run_present.
  - apply or_else_run_empty.
Qed.

(** [if_present(consumer)] on an empty container does nothing and returns
    [None]. On a container holding [v] it calls [consumer] once, on [v],
    discards what the call returns and returns [None]; an error of the
    consumer propagates. *)
Theorem if_present_spec self (consumer : callable W) s :
  (slot s self = Some VNone ->
     Optional.if_present self consumer s = (Return VNone, s))
  /\ (forall v, slot s self = Some v -> v <> VNone ->
        let r := Optional.if_present self consumer s in
        snd r = after_call consumer [v] s
        /\ trace (snd r) = (trace s ++ [Call (fname consumer) [v]])%list
        /\ fst r = match result_of consumer [v] s with
                   | Return _ => Return VNone
                   | Raise e => Raise e
                   end).
Proof.
  split.
  - intros H. unfold Optional.if_present, bind.
    rewrite (method_run _ _ _ _ _ H), (is_present_run _ _ _ H). reflexivity.
  - intros v H Hv r. subst r. unfold Optional.if_present, bind.
    rewrite (method_run _ _ _ _ _ H), (is_present_run _ _ _ H), (is_None_false _ Hv). cbn [negb].
    rewrite (getattr_obj_run _ _ _ H), call_run.
    destruct (result_of consumer [v] s); repeat split.
Qed.


(** [of_nullable(v)] always returns a new container: it is present exactly
    when [v] is not [None]. For such [v] it is what [of(v)] returns and
    [get()] gives [v] back; for [None] it is what [empty()] returns. *)
Theorem of_nullable_spec v s :
  let o := VOptional (length (heap s)) in
  let s' := alloc v s in
  Optional.of_nullable v s = (Return o, s')
  /\ Optional.is_present o s' = (Return (negb (is_None v)), s')
  /\ Optional.is_empty o s' = (Return (is_None v), s')
  /\ (v <> VNone ->
      Optional.of_nullable v s = Optional.of_ v s
      /\ Optional.get o s' = (Return v, s'))
  /\ (v = VNone -> Optional.of_nullable v s = Optional.empty s).
Proof.
  intros o s'. subst o s'. pose proof (slot_alloc_new s v) as Hs.
  split; [reflexivity|].
  split; [apply is_present_run, Hs|].
  split; [apply is_empty_run, Hs|].
  split.
  - intros Hv. split.
    + unfold Optional.of_. rewrite (is_None_false _ Hv). reflexivity.
    + apply get_run_present; assumption.
  - intros ->. reflexivity.
Qed.

(** [is_empty()] is the negation of [is_present()] on every receiver, and
    fails exactly as it does when the receiver has no [_obj]. *)
Theorem is_empty_negates_is_present self s :
  Optional.is_empty self s
  = match Optional.is_present self s with
    | (Return b, s') => (Return (negb b), s')
    | (Raise e, s') => (Raise e, s')
    end.
Proof.
  unfold Optional.is_empty, Optional.is_present, bind.
  destruct (Optional.getattr_obj self s) as [[x|e] s1]; [|reflexivity].
  unfold ret. rewrite Bool.negb_involutive. reflexivity.
Qed.

(** The queries [get], [is_present], [is_empty] and [or_else] leave the
    state as it was on every receiver, whether they return or raise: they
    create nothing and call nothing. *)
Theorem queries_leave_state self d s :
  snd (Optional.get self s) = s
  /\ snd (Optional.is_present self s) = s
  /\ snd (Optional.is_empty self s) = s
  /\ snd (Optional.or_else self d s) = s.
Proof.
  destruct (slot s self) as [x|] eqn:H.
  - unfold Optional.get, Optional.or_else, bind.
    rewrite (method_run _ _ _ _ _ H), (is_present_run _ _ _ H), (is_empty_run _ _ _ H),
      (getattr_obj_run _ _ _ H).
    destruct (is_None x); cbn [negb]; rewrite ?(getattr_obj_run _ _ _ H);
      repeat split.
  - destruct (getattr_obj_raises _ _ H) as [msg E].
    unfold Optional.get, Optional.or_else, Optional.is_present,
      Optional.is_empty, bind.
    rewrite E. repeat split.
    destruct self; cbn [Optional.method]; try reflexivity.
    rewrite E. reflexivity.
Qed.

(** [or_else_get(lambda: d)] returns or raises what [or_else(d)] does, on
    every receiver, and creates no instance; only the call of the lambda,
    made when the container is empty, tells them apart. *)
Theorem or_else_get_const_provider self d s :
  fst (Optional.or_else_get self (const_provider d) s)
  = fst (Optional.or_else self d s)
  /\ heap (snd (Optional.or_else_get self (const_provider d) s)) = heap s
  /\ world (snd (Optional.or_else_get self (const_provider d) s)) = world s.
Proof.
  destruct (slot s self) as [x|] eqn:H.
  - unfold Optional.or_else_get, Optional.or_else, bind.
    rewrite (method_run _ _ _ _ _ H), (is_present_run _ _ _ H).
    destruct (is_None x); cbn [negb].
    + cbn. rewrite app_nil_r. repeat split.
    + rewrite (getattr_obj_run _ _ _ H). repeat split.
  - destruct (getattr_obj_raises _ _ H) as [msg E].
    unfold Optional.or_else_get, Optional.or_else, Optional.is_present, bind.
    destruct self; cbn [Optional.method raise]; rewrite ?E; repeat split.
Qed.

(** [of_nullable(v).or_else(d)] is [v] unless [v] is [None], and [d]
    then. *)
Theorem of_nullable_or_else v d s :
  (do o <- Optional.of_nullable v ;; Optional.or_else o d) s
  = (Return (if is_None v then d else v), alloc v s).
Proof.
  unfold bind at 1. unfold Optional.of_nullable. rewrite cls_call_run.
  pose proof (slot_alloc_new s v) as Hs.
  destruct (is_None v) eqn:E.
  - apply is_None_true in E. subst v.
    apply or_else_run_empty, Hs.
  - apply or_else_run_present; [exact Hs|]. intros ->. discriminate.
Qed.

End Remaining.

(** ** What no method does *)

Section Frame.

Context {W : Type}.
Implicit Types (s : state W) (self obj v x d : value).
Local Open Scope py_scope.

Lemma footprint_same (c : option (callable W)) s : footprint c s s.
Proof. exists s. split; left; reflexivity. Qed.

Lemma footprint_alloc (c : option (callable W)) s x :
  footprint c s (alloc x s).
Proof. exists s. split; [left; reflexivity|right; eauto]. Qed.

Lemma footprint_call s (f : callable W) args :
  footprint (Some f) s (after_call f args s).
Proof. eexists. split; [right; eauto|left; reflexivity]. Qed.

Lemma footprint_call_alloc s (f : callable W) args x :
  footprint (Some f) s (alloc x (after_call f args s)).
Proof. eexists. split; [right; eauto|right; eauto]. Qed.

Lemma if_present_run_empty self (consumer : callable W) s :
  slot s self = Some VNone ->
  Optional.if_present self consumer s = (Return VNone, s).
Proof.
  intros H. unfold Optional.if_present, bind.
  rewrite (method_run _ _ _ _ _ H), (is_present_run _ _ _ H). reflexivity.
Qed.

Lemma if_present_run_present self (consumer : callable W) s v :
  slot s self = Some v -> v <> VNone ->
  snd (Optional.if_present self consumer s) = after_call consumer [v] s.
Proof.
  intros H Hv. unfold Optional.if_present, bind.
  rewrite (method_run _ _ _ _ _ H), (is_present_run _ _ _ H),
    (is_None_false _ Hv). cbn [negb].
  rewrite (getattr_obj_run _ _ _ H), call_run.
  destruct (result_of consumer [v] s); reflexivity.
Qed.

Lemma or_else_get_run_empty self (provider : callable W) s :
  slot s self = Some VNone ->
  Optional.or_else_get self provider s = call provider [] s.
Proof.
  intros H. unfold Optional.or_else_get, bind.
  rewrite (method_run _ _ _ _ _ H), (is_present_run _ _ _ H). reflexivity.
Qed.

Lemma or_else_get_run_present self (provider : callable W) s v :
  slot s self = Some v -> v <> VNone ->
  Optional.or_else_get self provider s = (Return v, s).
Proof.
  intros H Hv. unfold Optional.or_else_get, bind.
  rewrite (method_run _ _ _ _ _ H), (is_present_run _ _ _ H),
    (is_None_false _ Hv). cbn [negb].
  apply getattr_obj_run, H.
Qed.

Lemma or_else_throw_run_empty self ep s :
  slot s self = Some VNone ->
  Optional.or_else_throw self ep s
  = bind (call (default (TypeError_new (W := W)) ep) []) raise_stmt s.
Proof.
  intros H. unfold Optional.or_else_throw, bind.
  rewrite (method_run _ _ _ _ _ H), (is_empty_run _ _ _ H). reflexivity.
Qed.

Lemma or_else_throw_run_present self (ep : option (callable W)) s v :
  slot s self = Some v -> v <> VNone ->
  Optional.or_else_throw self ep s = (Return v, s).
Proof.
  intros H Hv. unfold Optional.or_else_throw, bind.
  rewrite (method_run _ _ _ _ _ H), (is_empty_run _ _ _ H),
    (is_None_false _ Hv).
  apply getattr_obj_run, H.
Qed.

(** A method whose receiver has no [_obj] to read fails before it does
    anything to the state. *)
Lemma invoke_no_slot (i : invocation) self s :
  receiver i = Some self -> slot s self = None -> snd (invoke i s) = s.
Proof.
  intros Hr Hs. destruct (getattr_obj_raises _ _ Hs) as [msg E].
  destruct i; cbn [receiver] in Hr; try discriminate;
    injection Hr as ->; cbn [invoke];
    unfold Optional.get, Optional.if_present, Optional.map, Optional.filter,
      Optional.or_else, Optional.or_else_get, Optional.or_else_throw,
      Optional.is_present, Optional.is_empty, bind;
    destruct self; cbn [Optional.method raise]; rewrite ?E; reflexivity.
Qed.

(** What a method does to the state is at most this: one call of the
    callable it was given, then the creation of one instance. Its own code
    assigns to no [_obj] of an existing instance, removes nothing, and
    touches the caller's state and the trace only through that call. The
    class methods and a direct construction, given no callable, make no
    call; [get], [is_present], [is_empty] and [or_else] leave the state
    as it is. *)
Theorem method_footprint (i : invocation) s :
  footprint (callable_of i) s (snd (invoke i s))
  /\ match i with
     | I_get _ | I_is_present _ | I_is_empty _ | I_or_else _ _ =>
         snd (invoke i s) = s
     | _ => True
     end.
Proof.
  assert (Hq : forall j self,
             receiver j = Some self -> slot s self = None ->
             footprint (callable_of j) s (snd (invoke j s))
             /\ snd (invoke j s) = s).
  { intros j self Hr Hs. rewrite (invoke_no_slot _ _ _ Hr Hs).
    split; [apply footprint_same|reflexivity]. }
  destruct i as [self|self|self|self f|self f|self f|self d|self f|self ep
                 |obj|obj| |obj]; cbn [invoke callable_of].
  - (* get *)
    destruct (slot s self) as [x|] eqn:H;
      [|apply (Hq (I_get self) self eq_refl H)].
    destruct (is_None x) eqn:E.
    + apply is_None_true in E. subst x. rewrite (get_run_empty _ _ H).
      split; [apply footprint_same|reflexivity].
    + rewrite (get_run_present _ _ _ H); [|intros ->; discriminate].
      split; [apply footprint_same|reflexivity].
  - (* is_present *)
    destruct (slot s self) as [x|] eqn:H;
      [|apply (Hq (I_is_present self) self eq_refl H)].
    unfold bind. rewrite (is_present_run _ _ _ H).
    split; [apply footprint_same|reflexivity].
  - (* is_empty *)
    destruct (slot s self) as [x|] eqn:H;
      [|apply (Hq (I_is_empty self) self eq_refl H)].
    unfold bind. rewrite (is_empty_run _ _ _ H).
    split; [apply footprint_same|reflexivity].
  - (* if_present *)
    split; [|exact I].
    destruct (slot s self) as [x|] eqn:H;
      [|apply (Hq (I_if_present self f) self eq_refl H)].
    destruct (is_None x) eqn:E.
    + apply is_None_true in E. subst x.
      rewrite (if_present_run_empty _ _ _ H). apply footprint_same.
    + rewrite (if_present_run_present _ _ _ x H); [|intros ->; discriminate].
      apply footprint_call.
  - (* map *)
    split; [|exact I].
    destruct (slot s self) as [x|] eqn:H;
      [|apply (Hq (I_map self f) self eq_refl H)].
    destruct (is_None x) eqn:E.
    + apply is_None_true in E. subst x.
      rewrite (map_run_empty _ _ _ H). apply footprint_alloc.
    + rewrite (map_run_present _ _ _ x H); [|intros ->; discriminate].
      unfold bind. rewrite call_run.
      destruct (result_of f [x] s).
      * apply footprint_call_alloc.
      * apply footprint_call.
  - (* filter *)
    split; [|exact I].
    destruct (slot s self) as [x|] eqn:H;
      [|apply (Hq (I_filter self f) self eq_refl H)].
    destruct (is_None x) eqn:E.
    + apply is_None_true in E. subst x.
      rewrite (filter_run_empty _ _ _ H). apply footprint_same.
    + rewrite (filter_run_present _ _ _ x H); [|intros ->; discriminate].
      unfold bind. rewrite call_run.
      destruct (result_of f [x] s) as [c|e]; [|apply footprint_call].
      destruct (truthy c); [apply footprint_call|apply footprint_call_alloc].
  - (* or_else *)
    destruct (slot s self) as [x|] eqn:H;
      [|apply (Hq (I_or_else self d) self eq_refl H)].
    destruct (is_None x) eqn:E.
    + apply is_None_true in E. subst x. rewrite (or_else_run_empty _ _ _ H).
      split; [apply footprint_same|reflexivity].
    + rewrite (or_else_run_present _ _ _ x H); [|intros ->; discriminate].
      split; [apply footprint_same|reflexivity].
  - (* or_else_get *)
    split; [|exact I].
    destruct (slot s self) as [x|] eqn:H;
      [|apply (Hq (I_or_else_get self f) self eq_refl H)].
    destruct (is_None x) eqn:E.
    + apply is_None_true in E. subst x.
      rewrite (or_else_get_run_empty _ _ _ H), call_run.
      apply footprint_call.
    + rewrite (or_else_get_run_present _ _ _ x H); [|intros ->; discriminate].
      apply footprint_same.
  - (* or_else_throw *)
    split; [|exact I].
    destruct (slot s self) as [x|] eqn:H;
      [|apply (Hq (I_or_else_throw self ep) self eq_refl H)].
    destruct (is_None x) eqn:E.
    + apply is_None_true in E. subst x.
      rewrite (or_else_throw_run_empty _ _ _ H). unfold bind.
      rewrite call_run.
      destruct (result_of (default TypeError_new ep) [] s) as [y|e].
      * rewrite raise_stmt_run. apply footprint_call.
      * apply footprint_call.
    + rewrite (or_else_throw_run_present _ _ _ x H);
        [|intros ->; discriminate].
      apply footprint_same.
  - (* of *)
    split; [|exact I].
    unfold Optional.of_. destruct (is_None obj).
    + apply footprint_same.
    + apply footprint_alloc.
  - split; [apply footprint_alloc|exact I].
  - split; [apply footprint_alloc|exact I].
  - split; [apply footprint_alloc|exact I].
Qed.

(** A method called on something that is not an instance of [Optional]
    raises the [AttributeError] of its first attribute lookup on [self]:
    [_obj] in [get], [is_present] and [is_empty]; the method [is_present]
    in [if_present], [map], [or_else] and [or_else_get]; the method
    [is_empty] in [filter] and [or_else_throw]. The state is unchanged:
    nothing is created and nothing is called. *)
Theorem receiver_not_an_instance (i : invocation) self attr s :
  receiver i = Some self ->
  is_instance self = false ->
  first_lookup i = Some attr ->
  invoke i s = (Raise (Exn AttributeError (no_attribute self attr)), s).
Proof.
  intros Hr Hi Ha.
  destruct i; cbn [receiver] in Hr; try discriminate;
    injection Hr as ->; cbn [first_lookup] in Ha; injection Ha as <-;
    destruct self; try discriminate; reflexivity.
Qed.

(** Whenever [map] returns, the container it returns did not exist before
    the call; in particular it is never the receiver (unlike [filter]). *)
Theorem map_returns_new self (function : callable W) s r s' :
  Optional.map self function s = (Return r, s') ->
  slot s r = None /\ r <> self /\ exists x, slot s' r = Some x.
Proof.
  intros H.
  assert (Hself : exists x, slot s self = Some x).
  { revert H. unfold Optional.map, bind.
    destruct (Optional.method self "is_present" Optional.is_present s)
      as [[b|e] s1] eqn:E; [|discriminate].
    apply method_inv, is_present_inv in E as (x & Hx & _). eauto. }
  assert (Hr : slot s r = None /\ exists x, slot s' r = Some x).
  { revert H. unfold Optional.map, bind.
    destruct (Optional.method self "is_present" Optional.is_present s)
      as [[b|e] s1] eqn:E; [|discriminate].
    apply method_inv, is_present_inv in E as (x & Hx & -> & ->).
    destruct (negb (is_None x)).
    - rewrite (getattr_obj_run _ _ _ Hx), call_run.
      destruct (result_of function [x] s) as [y|e]; [|discriminate].
      unfold Optional.of_nullable. rewrite cls_call_run.
      intros [= <- <-]. split; [|eauto using slot_alloc_new].
      cbn [slot]. apply lookup_ge_None.
      unfold after_call, call. cbn. rewrite length_app. lia.
    - unfold Optional.empty. rewrite cls_call_run.
      intros [= <- <-]. split; [|eauto using slot_alloc_new].
      cbn [slot]. apply lookup_ge_None. lia. }
  destruct Hr as [Hn Hx], Hself as [x0 Hx0].
  split; [exact Hn|]. split; [|exact Hx].
  intros ->. congruence.
Qed.

(** Emptiness goes through any chain of [map] and [filter]: on an empty
    container the chain returns an empty container and none of its
    callables is called. *)
Theorem chain_on_empty (steps : list step) self s :
  slot s self = Some VNone ->
  exists o s',
    chain steps self s = (Return o, s')
    /\ slot s' o = Some VNone
    /\ trace s' = trace s
    /\ world s' = world s.
Proof.
  revert self s. induction steps as [|st rest IH]; intros self s H.
  - exists self, s. repeat split. exact H.
  - cbn [chain]. unfold bind. destruct st as [f|p]; cbn [apply_step].
    + rewrite (map_run_empty _ _ _ H).
      destruct (IH (VOptional (length (heap s))) (alloc VNone s)
                   (slot_alloc_new s VNone)) as (o & s' & E & Ho & Ht & Hw).
      exists o, s'. rewrite E. repeat split; assumption.
    + rewrite (filter_run_empty _ _ _ H).
      destruct (IH self s H) as (o & s' & E & Ho & Ht & Hw).
      exists o, s'. rewrite E. repeat split; assumption.
Qed.

(** A chain of two [map]s stops at the first [None]: when [function]
    returns [None] on the held value, [opt.map(function).map(g)] is an
    empty container and [g] is not called. *)
Theorem map_chain_stops_at_None self (function g : callable W) v s :
  slot s self = Some v -> v <> VNone ->
  result_of function [v] s = Return VNone ->
  exists o s',
    (do b <- Optional.map self function ;; Optional.map b g) s
    = (Return o, s')
    /\ slot s' o = Some VNone
    /\ trace s' = (trace s ++ [Call (fname function) [v]])%list
    /\ world s' = world (after_call function [v] s).
Proof.
  intros H Hv Hf. unfold bind at 1.
  rewrite (map_run_present _ _ _ _ H Hv). unfold bind at 1.
  rewrite call_run, Hf. unfold Optional.of_nullable. rewrite cls_call_run.
  set (s1 := after_call function [v] s).
  rewrite (map_run_empty _ _ _ (slot_alloc_new s1 VNone)).
  eexists _, _. split; [reflexivity|].
  split; [apply slot_alloc_new|]. split; reflexivity.
Qed.

(** The container catches nothing: an error raised by the callable that
    [map], [filter] or [if_present] calls on the held value, or by the
    provider that [or_else_get] or [or_else_throw] calls on an empty
    container, is the error of the method, and nothing is created after
    the call. *)
Theorem callback_errors_propagate self (f : callable W) e s :
  (forall v, slot s self = Some v -> v <> VNone ->
     result_of f [v] s = Raise e ->
     Optional.map self f s = (Raise e, after_call f [v] s)
     /\ Optional.filter self f s = (Raise e, after_call f [v] s)
     /\ Optional.if_present self f s = (Raise e, after_call f [v] s))
  /\ (slot s self = Some VNone ->
      result_of f [] s = Raise e ->
      Optional.or_else_get self f s = (Raise e, after_call f [] s)
      /\ Optional.or_else_throw self (Some f) s
         = (Raise e, after_call f [] s)).
Proof.
  split.
  - intros v H Hv Hf.
    split; [|split].
    + rewrite (map_run_present _ _ _ _ H Hv). unfold bind.
      rewrite call_run, Hf. reflexivity.
    + rewrite (filter_run_present _ _ _ _ H Hv). unfold bind.
      rewrite call_run, Hf. reflexivity.
    + unfold Optional.if_present, bind.
      rewrite (method_run _ _ _ _ _ H), (is_present_run _ _ _ H), (is_None_false _ Hv). cbn [negb].
      rewrite (getattr_obj_run _ _ _ H), call_run, Hf. reflexivity.
  - intros H Hf. split.
    + unfold Optional.or_else_get, bind.
      rewrite (method_run _ _ _ _ _ H), (is_present_run _ _ _ H). cbn [negb is_None].
      rewrite call_run, Hf. reflexivity.
    + unfold Optional.or_else_throw, bind.
      rewrite (method_run _ _ _ _ _ H), (is_empty_run _ _ _ H). cbn [is_None from_option id].
      rewrite call_run, Hf. reflexivity.
Qed.

End Frame.

(** ** The further statements at sample inputs *)

Lemma or_else_spec_witness :
  Optional.or_else (VOptional 1) (VInt 0) s2 = (Return (VInt 7), s2)
  /\ Optional.or_else (VOptional 0) (VInt 0) s2 = (Return (VInt 0), s2).
Proof.
  split.
  - apply (proj1 (or_else_spec (VOptional 1) (VInt 0) s2) (VInt 7));
      [reflexivity|discriminate].
  - apply (proj2 (or_else_spec (VOptional 0) (VInt 0) s2)). reflexivity.
Defined.

Lemma if_present_spec_witness :
  Optional.if_present (VOptional 0) is_positive s2 = (Return VNone, s2)
  /\ fst (Optional.if_present (VOptional 1) is_positive s2) = Return VNone
  /\ trace (snd (Optional.if_present (VOptional 1) is_positive s2))
     = [Call "is_positive" [VInt 7]]
  /\ fst (Optional.if_present (VOptional 1) boom s2)
     = Raise (Exn (OtherError "KeyError") "boom").
Proof.
  split; [|split; [|split]].
  - apply (proj1 (if_present_spec (VOptional 0) is_positive s2)).
    reflexivity.
  - destruct (proj2 (if_present_spec (VOptional 1) is_positive s2) (VInt 7))
      as (_ & _ & H); [reflexivity|discriminate|exact H].
  - destruct (proj2 (if_present_spec (VOptional 1) is_positive s2) (VInt 7))
      as (_ & H & _); [reflexivity|discriminate|exact H].
  - destruct (proj2 (if_present_spec (VOptional 1) boom s2) (VInt 7))
      as (_ & _ & H); [reflexivity|discriminate|exact H].
Defined.


Lemma of_nullable_spec_witness :
  Optional.of_nullable (VStr "abcd") s0 = Optional.of_ (VStr "abcd") s0
  /\ Optional.of_nullable VNone s0 = Optional.empty s0.
Proof.
  destruct (of_nullable_spec (VStr "abcd") s0) as (_ & _ & _ & H & _).
  destruct (of_nullable_spec VNone s0) as (_ & _ & _ & _ & H').
  split.
  - apply H. discriminate.
  - apply H'. reflexivity.
Defined.

Lemma receiver_not_an_instance_witness :
  invoke (I_map (VInt 5) boom) s2
  = (Raise (Exn AttributeError "'int' object has no attribute 'is_present'"),
     s2)
  /\ invoke (I_filter (VStr "a") boom) s2
     = (Raise (Exn AttributeError "'str' object has no attribute 'is_empty'"),
        s2)
  /\ invoke (I_get VNone) s2
     = (Raise (Exn AttributeError
                   "'NoneType' object has no attribute '_obj'"), s2).
Proof.
  split; [|split].
  - apply (receiver_not_an_instance (I_map (VInt 5) boom) (VInt 5)
             "is_present" s2); reflexivity.
  - apply (receiver_not_an_instance (I_filter (VStr "a") boom) (VStr "a")
             "is_empty" s2); reflexivity.
  - apply (receiver_not_an_instance (I_get VNone) VNone "_obj" s2);
      reflexivity.
Defined.

Lemma map_returns_new_witness :
  Optional.map (VOptional 1) is_positive s2
  = (Return (VOptional 2),
     alloc (VBool true) (after_call is_positive [VInt 7] s2))
  /\ slot s2 (VOptional 2) = None
  /\ VOptional 2 <> VOptional 1.
Proof.
  split; [reflexivity|].
  destruct (map_returns_new (VOptional 1) is_positive s2 (VOptional 2)
              (alloc (VBool true) (after_call is_positive [VInt 7] s2))
              eq_refl) as (H1 & H2 & _).
  split; [exact H1|exact H2].
Defined.

Lemma chain_on_empty_witness :
  exists o s',
    chain [Step_map str_upper; Step_filter boom; Step_map is_positive]
          (VOptional 0) s2 = (Return o, s')
    /\ slot s' o = Some VNone
    /\ trace s' = trace s2
    /\ world s' = world s2.
Proof.
  apply (chain_on_empty
           [Step_map str_upper; Step_filter boom; Step_map is_positive]
           (VOptional 0) s2).
  reflexivity.
Defined.

Lemma map_chain_stops_at_None_witness :
  exists o s',
    (do b <- Optional.map (VOptional 1) to_None ;; Optional.map b boom)%py s2
    = (Return o, s')
    /\ slot s' o = Some VNone
    /\ trace s' = (trace s2 ++ [Call "to_None" [VInt 7]])%list
    /\ world s' = world (after_call to_None [VInt 7] s2).
Proof.
  apply (map_chain_stops_at_None (VOptional 1) to_None boom (VInt 7) s2).
  - reflexivity.
  - discriminate.
  - reflexivity.
Defined.

Lemma callback_errors_propagate_witness :
  Optional.filter (VOptional 1) boom s2
  = (Raise (Exn (OtherError "KeyError") "boom"),
     after_call boom [VInt 7] s2)
  /\ Optional.or_else_get (VOptional 0) boom s2
     = (Raise (Exn (OtherError "KeyError") "boom"), after_call boom [] s2).
Proof.
  destruct (callback_errors_propagate (VOptional 1) boom
              (Exn (OtherError "KeyError") "boom") s2) as [Hp _].
  destruct (callback_errors_propagate (VOptional 0) boom
              (Exn (OtherError "KeyError") "boom") s2) as [_ He].
  split.
  - destruct (Hp (VInt 7)) as (_ & H & _);
      [reflexivity|discriminate|reflexivity|exact H].
  - destruct He as [H _]; [reflexivity|reflexivity|exact H].
Defined.
